(** * Customer Intelligence Dashboard (src/app.py)

    A shallow embedding of the pandas pipeline of the dashboard script:
    the loader with its derived calendar columns, the three-way
    [DataFrame.query] filter, the KPI scalars, the four group-by
    aggregations with their categorical re-ordering, and the insight
    summary that reads the first row of each aggregation sorted by
    amount.

    Conventions of the model.
    - A [DataFrame] is the list of its rows, in index order.
    - The [Amount] column holds exact integers (minor units); the
      rounding of binary floating point is not modelled.
    - Every cell of the four input columns is populated, as the input
      interface requires; pandas' missing-value handling is not modelled.
    - A pandas float result is [Finite q] or [NaN]. *)

From Stdlib Require Import ZArith String Ascii.
From Stdlib Require Import QArith.QArith_base.
From stdpp Require Import base list sorting strings.

Close Scope Q_scope.
Local Open Scope string_scope.
Local Open Scope Z_scope.

(** ** Calendar *)

Inductive month :=
| Jan | Feb | Mar | Apr | May | Jun | Jul | Aug | Sep | Oct | Nov | Dec.

Record Timestamp := mkTimestamp {
  ts_year : Z;
  ts_month : month;
  ts_day : Z
}.

Definition month_number (m : month) : Z :=
  match m with
  | Jan => 1 | Feb => 2 | Mar => 3 | Apr => 4 | May => 5 | Jun => 6
  | Jul => 7 | Aug => 8 | Sep => 9 | Oct => 10 | Nov => 11 | Dec => 12
  end.

(** [Series.dt.month_name()] *)
Definition month_name (m : month) : string :=
  match m with
  | Jan => "January" | Feb => "February" | Mar => "March" | Apr => "April"
  | May => "May" | Jun => "June" | Jul => "July" | Aug => "August"
  | Sep => "September" | Oct => "October" | Nov => "November"
  | Dec => "December"
  end.

(** Days since 1970-01-01 in the proleptic Gregorian calendar. *)
Definition days_from_civil (t : Timestamp) : Z :=
  let m := month_number (ts_month t) in
  let y := if m <=? 2 then ts_year t - 1 else ts_year t in
  let era := y / 400 in
  let yoe := y - era * 400 in
  let doy := (153 * (if m <=? 2 then m + 9 else m - 3) + 2) / 5
             + ts_day t - 1 in
  let doe := yoe * 365 + yoe / 4 - yoe / 100 + doy in
  era * 146097 + doe - 719468.

(** [Series.dt.dayofweek]: Monday is 0. *)
Definition dayofweek (t : Timestamp) : Z := (days_from_civil t + 3) mod 7.

Definition day_order : list string :=
  ["Monday"; "Tuesday"; "Wednesday"; "Thursday"; "Friday"; "Saturday";
   "Sunday"].

Definition month_order : list string :=
  ["January"; "February"; "March"; "April"; "May"; "June";
   "July"; "August"; "September"; "October"; "November"; "December"].

(** [Series.dt.day_name()] *)
Definition day_name (t : Timestamp) : string :=
  nth (Z.to_nat (dayofweek t)) day_order "".

(** ** Rows and frames *)

(** A row of the spreadsheet. *)
Record RawRow := mkRawRow {
  xl_Date : Timestamp;
  xl_Amount : Z;
  xl_customer_segment : string;
  xl_businessindustrytype : string
}.

(** A row of [df] once [load_data] has added the derived columns. *)
Record Row := mkRow {
  Date : Timestamp;
  Amount : Z;
  customer_segment : string;
  businessindustrytype : string;
  Year : Z;
  Month : string;
  Day_Name : string
}.

Abbreviation DataFrame := (list Row).

Global Instance month_eq_dec : EqDecision month.
Proof. solve_decision. Defined.
Global Instance Timestamp_eq_dec : EqDecision Timestamp.
Proof. solve_decision. Defined.
Global Instance Row_eq_dec : EqDecision Row.
Proof. solve_decision. Defined.

Definition derive (x : RawRow) : Row :=
  {| Date := xl_Date x;
     Amount := xl_Amount x;
     customer_segment := xl_customer_segment x;
     businessindustrytype := xl_businessindustrytype x;
     Year := ts_year (xl_Date x);
     Month := month_name (ts_month (xl_Date x));
     Day_Name := day_name (xl_Date x) |}.

Definition load_data (sheet : list RawRow) : DataFrame := map derive sheet.

(** ** The filter: [df.query("Year == @selected_year and ...")]

    Inside [query], [column == list] is rewritten to a membership test
    ([Series.isin]); the three boolean columns are combined with [and],
    and the frame is indexed by the resulting mask. *)

Definition isin {A} `{EqDecision A} (column values : list A) : list bool :=
  map (λ x, bool_decide (x ∈ values)) column.

Definition mask_and (m1 m2 : list bool) : list bool := zip_with andb m1 m2.

Fixpoint boolean_index {A} (rows : list A) (mask : list bool) : list A :=
  match rows, mask with
  | r :: rows', b :: mask' =>
      if b then r :: boolean_index rows' mask'
      else boolean_index rows' mask'
  | _, _ => []
  end.

Definition query (df : DataFrame)
    (selected_year : list Z) (selected_segment selected_industry : list string)
  : DataFrame :=
  boolean_index df
    (mask_and
       (mask_and (isin (map Year df) selected_year)
                 (isin (map customer_segment df) selected_segment))
       (isin (map businessindustrytype df) selected_industry)).

(** The condition of the query, as a predicate on rows. *)
Definition selected (Y : list Z) (S I : list string) (r : Row) : Prop :=
  Year r ∈ Y ∧ customer_segment r ∈ S ∧ businessindustrytype r ∈ I.

Global Instance selected_dec Y S I r : Decision (selected Y S I r).
Proof. unfold selected. apply _. Defined.

(** The names bound by the script around the filter statement. *)
Record Globals := mkGlobals {
  df : DataFrame;
  selected_year : list Z;
  selected_segment : list string;
  selected_industry : list string;
  filtered_df : DataFrame
}.

(** [filtered_df = df.query(...)]: binds [filtered_df], nothing else. *)
Definition apply_filters (g : Globals) : Globals :=
  {| df := df g;
     selected_year := selected_year g;
     selected_segment := selected_segment g;
     selected_industry := selected_industry g;
     filtered_df :=
       query (df g) (selected_year g) (selected_segment g)
             (selected_industry g) |}.

(** ** Sorting and distinct values *)

(** Insertion sort on a boolean order; equal keys keep their order. *)
Fixpoint insert_by {A} (le : A → A → bool) (x : A) (l : list A) : list A :=
  match l with
  | [] => [x]
  | y :: l' => if le x y then x :: l else y :: insert_by le x l'
  end.

Definition isort {A} (le : A → A → bool) (l : list A) : list A :=
  foldr (insert_by le) [] l.

(** [Series.unique()]: the distinct values in order of first appearance. *)
Fixpoint unique (l : list string) : list string :=
  match l with
  | [] => []
  | x :: l' => x :: filter (λ y, y ≠ x) (unique l')
  end.

(** [Series.nunique()] *)
Definition nunique (l : list string) : nat := length (unique l).

Definition sumZ (l : list Z) : Z := foldr Z.add 0 l.

(** ** KPI scalars *)

Inductive pyfloat :=
| Finite (q : Q)
| NaN.

(** [filtered_df["Amount"].sum()] *)
Definition total_sales (d : DataFrame) : Z := sumZ (map Amount d).

(** [filtered_df["customer_segment"].nunique()] *)
Definition total_customers (d : DataFrame) : nat :=
  nunique (map customer_segment d).

(** [filtered_df["Amount"].mean()]: the sum over the count, and [NaN] for
    a column without values. *)
Definition avg_transaction (d : DataFrame) : pyfloat :=
  match d with
  | [] => NaN
  | _ :: _ => Finite (Qmake (sumZ (map Amount d)) (Pos.of_nat (length d)))
  end.

(** ** Aggregations *)

(** The two-column frame left by [groupby(..)["Amount"].sum().reset_index()]:
    one row per group key, with the group's total. *)
Abbreviation Aggregation := (list (string * Z)).

Definition keys (a : Aggregation) : list string := map fst a.

Definition group_total (key : Row → string) (d : DataFrame) (k : string) : Z :=
  sumZ (map Amount (filter (λ r, key r = k) d)).

(** [groupby] sorts the group keys ([sort=True]); keys without rows do
    not appear. *)
Definition groupby_sum (key : Row → string) (d : DataFrame) : Aggregation :=
  map (λ k, (k, group_total key d k))
      (isort String.leb (unique (map key d))).

(** [pd.Categorical(column, categories=order, ordered=True)] stores, for
    each value, its position in [order], and no position for a value that
    is not a category. *)
Fixpoint cat_code (categories : list string) (s : string) : option nat :=
  match categories with
  | [] => None
  | c :: cs => if decide (c = s) then Some O else S <$> cat_code cs s
  end.

(** Ascending order of category codes, values without a code last. *)
Definition code_leb (c1 c2 : option nat) : bool :=
  match c1, c2 with
  | Some n1, Some n2 => Nat.leb n1 n2
  | Some _, None => true
  | None, Some _ => false
  | None, None => true
  end.

(** [a[col] = pd.Categorical(a[col], categories=order, ordered=True)]
    followed by [a.sort_values(col)]. *)
Definition cat_leb (order : list string) (s t : string) : bool :=
  code_leb (cat_code order s) (cat_code order t).

Definition sort_values_categorical (order : list string) (a : Aggregation)
  : Aggregation :=
  isort (λ x y, cat_leb order x.1 y.1) a.

Definition sales_by_segment (d : DataFrame) : Aggregation :=
  groupby_sum customer_segment d.

Definition sales_by_day (d : DataFrame) : Aggregation :=
  sort_values_categorical day_order (groupby_sum Day_Name d).

Definition industry_sales (d : DataFrame) : Aggregation :=
  groupby_sum businessindustrytype d.

Definition monthly_trend (d : DataFrame) : Aggregation :=
  sort_values_categorical month_order (groupby_sum Month d).

(** ** The insight summary *)

Inductive exn := IndexError.

Inductive result (A : Type) :=
| Ok (a : A)
| Raise (e : exn).
Arguments Ok {A} a.
Arguments Raise {A} e.

Global Instance result_ret : MRet result := λ A a, Ok a.
Global Instance result_bind : MBind result := λ A B k m,
  match m with
  | Ok a => k a
  | Raise e => Raise e
  end.

(** [a.sort_values('Amount', ascending=False)]: pandas reverses the column,
    sorts it in ascending order and reverses the outcome.  The order that
    the sort gives to rows of equal amount is that of a stable sort, which
    is what the default sort does on a frame of at most sixteen rows. *)
Definition amount_leb (x y : string * Z) : bool := x.2 <=? y.2.

Definition sort_values_amount_desc (a : Aggregation) : Aggregation :=
  rev (isort amount_leb (rev a)).

(** [a.iloc[0, 0]]: the first column of the first row; out of bounds on a
    frame without rows. *)
Definition iloc_0_0 (a : Aggregation) : result string :=
  match a with
  | [] => Raise IndexError
  | (k, _) :: _ => Ok k
  end.

(** [a.sort_values('Amount', ascending=False).iloc[0,0]] *)
Definition top_key (a : Aggregation) : result string :=
  iloc_0_0 (sort_values_amount_desc a).

Record Insight := mkInsight {
  insight_total : Z;
  insight_years : nat;
  insight_segment : string;
  insight_day : string;
  insight_industry : string
}.

(** The f-string of the insight section; its fields are evaluated from
    left to right. *)
Definition insight_summary (years : list Z) (d : DataFrame) : result Insight :=
  seg ← top_key (sales_by_segment d);
  day ← top_key (sales_by_day d);
  ind ← top_key (industry_sales d);
  mret {| insight_total := total_sales d;
        insight_years := length years;
        insight_segment := seg;
        insight_day := day;
        insight_industry := ind |}.

(** ** The page *)

Inductive Widget :=
| metric_revenue (v : Z)
| metric_segments (v : nat)
| metric_avg (v : pyfloat)
| chart_segment (a : Aggregation)
| chart_day (a : Aggregation)
| chart_industry (a : Aggregation)
| data_table (rows : list (Timestamp * string * string * Z * Z * string))
| chart_month (a : Aggregation)
| insight_text (i : Insight).

Definition table_row (r : Row) :=
  (Date r, customer_segment r, businessindustrytype r, Amount r, Year r,
   Month r).

(** The data-dependent elements put on the page before the insight
    section, in the order of the script. *)
Definition page_body (d : DataFrame) : list Widget :=
  [ metric_revenue (total_sales d);
    metric_segments (total_customers d);
    metric_avg (avg_transaction d);
    chart_segment (sales_by_segment d);
    chart_day (sales_by_day d);
    chart_industry (industry_sales d);
    data_table (map table_row d);
    chart_month (monthly_trend d) ].

(** One run of the script on the loaded frame and the current selections:
    the elements written to the page, and how the run ended. *)
Definition run (g : Globals) : list Widget * result unit :=
  let d := filtered_df (apply_filters g) in
  match insight_summary (selected_year g) d with
  | Ok i => ((page_body d ++ [insight_text i])%list, Ok ())
  | Raise e => (page_body d, Raise e)
  end.

(** ** Sample data *)

Definition sheet4 : list RawRow :=
  [ mkRawRow (mkTimestamp 2023 Jan 2) 100 "SegA" "Tech";
    mkRawRow (mkTimestamp 2023 Jan 3) 50 "SegB" "Tech";
    mkRawRow (mkTimestamp 2023 Jun 5) 200 "SegA" "Retail";
    mkRawRow (mkTimestamp 2024 Feb 1) 75 "SegB" "Retail" ].

Definition df4 : DataFrame := load_data sheet4.

(** The sample frame with no year selected. *)
Definition g_no_year : Globals :=
  mkGlobals df4 [] ["SegA"; "SegB"] ["Tech"; "Retail"] [].

Definition all_months : list month :=
  [Dec; Mar; Jan; Nov; Feb; Oct; Apr; Sep; May; Aug; Jun; Jul].

Definition sheet12 : list RawRow :=
  map (λ m, mkRawRow (mkTimestamp 2023 m 15) (month_number m) "SegA" "Tech")
      all_months.

(** ** The sidebar *)

(** [Series.unique()] on a column of any type. *)
Fixpoint unique_values {A} `{EqDecision A} (l : list A) : list A :=
  match l with
  | [] => []
  | x :: l' => x :: filter (λ y, y ≠ x) (unique_values l')
  end.

(** [sorted(df["Year"].unique())]: the options of the year selector, and
    its default. *)
Definition year_options (d : DataFrame) : list Z :=
  isort Z.leb (unique_values (map Year d)).

(** [df["customer_segment"].unique()] *)
Definition segment_options (d : DataFrame) : list string :=
  unique (map customer_segment d).

(** [df["customer_segment"].unique()[:3]] *)
Definition segment_default (d : DataFrame) : list string :=
  take 3 (segment_options d).

(** [df["businessindustrytype"].unique()] *)
Definition industry_options (d : DataFrame) : list string :=
  unique (map businessindustrytype d).

(** [df["businessindustrytype"].unique()[:5]] *)
Definition industry_default (d : DataFrame) : list string :=
  take 5 (industry_options d).

(** The names of the script on the first run, when each selector returns
    its default. *)
Definition first_run (d : DataFrame) : Globals :=
  {| df := d;
     selected_year := year_options d;
     selected_segment := segment_default d;
     selected_industry := industry_default d;
     filtered_df := [] |}.

(** Six segments and six industries, for the defaults. *)
Definition sheet6 : list RawRow :=
  [ mkRawRow (mkTimestamp 2024 Mar 1) 10 "Gold" "Retail";
    mkRawRow (mkTimestamp 2022 Jul 9) 20 "Silver" "Tech";
    mkRawRow (mkTimestamp 2024 Mar 2) 30 "Gold" "Energy";
    mkRawRow (mkTimestamp 2023 Dec 31) 40 "Bronze" "Health";
    mkRawRow (mkTimestamp 2022 Jan 1) 50 "Basic" "Media";
    mkRawRow (mkTimestamp 2023 Feb 28) 60 "Trial" "Retail";
    mkRawRow (mkTimestamp 2021 Aug 15) 70 "Bronze" "Travel" ].

(** ** Sanity checks on the sample data *)

Example day_names_df4 :
  map Day_Name df4 = ["Monday"; "Tuesday"; "Monday"; "Thursday"].
Proof. reflexivity. Qed.

Example end_to_end_df4 :
  let d := query df4 [2023] ["SegA"; "SegB"] ["Tech"; "Retail"] in
  length d = 3%nat ∧ total_sales d = 350
  ∧ sales_by_segment d = [("SegA", 300); ("SegB", 50)]
  ∧ top_key (sales_by_segment d) = Ok "SegA".
Proof. vm_compute. done. Qed.

(** ** The filter as a predicate *)

Lemma isin_nil {A} `{EqDecision A} (column : list A) :
  isin column [] = map (λ _, false) column.
Proof.
  unfold isin. apply map_ext. intros x.
  apply bool_decide_eq_false. apply not_elem_of_nil.
Qed.

Lemma mask_and_map {A} (f g : A → bool) (l : list A) :
  mask_and (map f l) (map g l) = map (λ x, f x && g x) l.
Proof.
  unfold mask_and. induction l as [|x l IH]; simpl; [done|]. by rewrite IH.
Qed.

Lemma boolean_index_map {A} (f : A → bool) (l : list A) :
  boolean_index l (map f l) = filter (λ x, f x = true) l.
Proof.
  induction l as [|x l IH]; simpl; [done|].
  rewrite filter_cons, IH. destruct (f x) eqn:E.
  - rewrite decide_True; done.
  - rewrite decide_False; [done|]. by intros ?.
Qed.

Lemma query_filter (d : DataFrame) Y S I :
  query d Y S I = filter (selected Y S I) d.
Proof.
  unfold query, isin. rewrite !map_map, !mask_and_map, boolean_index_map.
  apply list_filter_iff. intros r. unfold selected.
  rewrite !andb_true_iff, !bool_decide_eq_true. tauto.
Qed.

Lemma query_nil_years (d : DataFrame) S I : query d [] S I = [].
Proof.
  rewrite query_filter. induction d as [|r d IH]; [done|].
  rewrite filter_cons, IH, decide_False; [done|].
  intros [Hy _]. by apply not_elem_of_nil in Hy.
Qed.

Lemma query_nil_segments (d : DataFrame) Y I : query d Y [] I = [].
Proof.
  rewrite query_filter. induction d as [|r d IH]; [done|].
  rewrite filter_cons, IH, decide_False; [done|].
  intros (_ & Hs & _). by apply not_elem_of_nil in Hs.
Qed.

Lemma query_nil_industries (d : DataFrame) Y S : query d Y S [] = [].
Proof.
  rewrite query_filter. induction d as [|r d IH]; [done|].
  rewrite filter_cons, IH, decide_False; [done|].
  intros (_ & _ & Hi). by apply not_elem_of_nil in Hi.
Qed.

Lemma query_sublist (d : DataFrame) Y S I : query d Y S I `sublist_of` d.
Proof. rewrite query_filter. apply sublist_filter. Qed.

(** ** Claims about the filter *)

(** C3. The filter returns exactly the rows whose year, segment and
    industry are each a member of the corresponding selection: it is the
    sub-frame cut out by the conjunction of the three membership tests,
    so a row is in the result if and only if it is a row of the input
    that passes all three. *)
Theorem query_exactly_selected (d : DataFrame) (Y : list Z) (S I : list string) :
  query d Y S I = filter (selected Y S I) d
  ∧ ∀ r, r ∈ query d Y S I ↔
         r ∈ d ∧ Year r ∈ Y ∧ customer_segment r ∈ S
         ∧ businessindustrytype r ∈ I.
Proof.
  split; [apply query_filter|].
  intros r. rewrite query_filter, list_elem_of_filter.
  unfold selected. tauto.
Qed.

(** C4. As soon as one of the three selections is empty, the filter
    returns the empty frame, whatever the other two selections are. *)
Theorem query_empty_selection (d : DataFrame) (Y : list Z) (S I : list string) :
  Y = [] ∨ S = [] ∨ I = [] → query d Y S I = [].
Proof.
  intros [-> | [-> | ->]];
    [apply query_nil_years | apply query_nil_segments
    | apply query_nil_industries].
Qed.

Lemma query_empty_selection_witness :
  query df4 [2023] [] ["Tech"; "Retail"] = [].
Proof. apply query_empty_selection. right. left. reflexivity. Defined.

(** C6. Filtering an already filtered frame by the same selections
    changes nothing. *)
Theorem query_idempotent (d : DataFrame) (Y : list Z) (S I : list string) :
  query (query d Y S I) Y S I = query d Y S I.
Proof.
  rewrite !query_filter.
  induction d as [|r d IH]; [done|].
  destruct (decide (selected Y S I r)) as [Hr|Hr].
  - rewrite !filter_cons_True by done. by rewrite IH.
  - rewrite filter_cons_False by done. apply IH.
Qed.

(** C9. The filter statement leaves [df] and the three selections as
    they were, and the rows of [filtered_df] are rows of [df] in the
    order in which [df] has them. *)
Theorem apply_filters_frame (g : Globals) :
  df (apply_filters g) = df g
  ∧ selected_year (apply_filters g) = selected_year g
  ∧ selected_segment (apply_filters g) = selected_segment g
  ∧ selected_industry (apply_filters g) = selected_industry g
  ∧ filtered_df (apply_filters g) `sublist_of` df g.
Proof.
  repeat split. simpl. apply query_sublist.
Qed.

(** ** Insertion sort *)

Section isort.
Context {A : Type} (le : A → A → bool).

Lemma insert_by_Permutation x l : insert_by le x l ≡ₚ x :: l.
Proof.
  induction l as [|y l IH]; simpl; [done|].
  destruct (le x y); [done|]. rewrite IH. apply perm_swap.
Qed.

Lemma isort_Permutation l : isort le l ≡ₚ l.
Proof.
  induction l as [|x l IH]; simpl; [done|].
  by rewrite insert_by_Permutation, IH.
Qed.

Lemma isort_length l : length (isort le l) = length l.
Proof. apply Permutation_length, isort_Permutation. Qed.

Lemma elem_of_isort x l : x ∈ isort le l ↔ x ∈ l.
Proof. by rewrite isort_Permutation. Qed.

Hypothesis le_total : ∀ x y, le x y = true ∨ le y x = true.

Lemma insert_by_Sorted x l :
  Sorted (λ a b, le a b = true) l →
  Sorted (λ a b, le a b = true) (insert_by le x l).
Proof.
  induction 1 as [|y l Hl IH Hy]; simpl.
  { repeat constructor. }
  destruct (le x y) eqn:E.
  - constructor; [by constructor|]. by constructor.
  - constructor; [done|].
    destruct Hy as [|z l Hz]; simpl.
    + constructor. by destruct (le_total x y) as [?|?]; [congruence|].
    + destruct (le x z); constructor; [|done].
      by destruct (le_total x y) as [?|?]; [congruence|].
Qed.

Lemma isort_Sorted l : Sorted (λ a b, le a b = true) (isort le l).
Proof.
  induction l as [|x l IH]; simpl; [constructor|].
  by apply insert_by_Sorted.
Qed.

Hypothesis le_trans : ∀ x y z, le x y = true → le y z = true → le x z = true.

Lemma isort_StronglySorted l :
  StronglySorted (λ a b, le a b = true) (isort le l).
Proof.
  apply Sorted.Sorted_StronglySorted; [|apply isort_Sorted].
  intros x y z. apply le_trans.
Qed.
End isort.

(** ** Distinct values *)

Lemma elem_of_unique (x : string) (l : list string) : x ∈ unique l ↔ x ∈ l.
Proof.
  induction l as [|y l IH]; simpl; [done|].
  rewrite !elem_of_cons, list_elem_of_filter, IH.
  destruct (decide (x = y)); tauto.
Qed.

Lemma NoDup_unique (l : list string) : NoDup (unique l).
Proof.
  induction l as [|y l IH]; simpl; [constructor|].
  constructor; [|by apply NoDup_filter].
  rewrite list_elem_of_filter. intros [Hy _]. by apply Hy.
Qed.


(** ** Sums *)

Lemma sumZ_app (l1 l2 : list Z) : sumZ (l1 ++ l2) = sumZ l1 + sumZ l2.
Proof. induction l1 as [|x l1 IH]; simpl; [done|]. rewrite IH. lia. Qed.





Lemma group_total_nil (key : Row → string) k : group_total key [] k = 0.
Proof. done. Qed.




Lemma keys_groupby_sum (key : Row → string) (d : DataFrame) :
  keys (groupby_sum key d) = isort String.leb (unique (map key d)).
Proof.
  unfold keys, groupby_sum. rewrite map_map. simpl. apply map_id.
Qed.



(** ** Claims about the aggregations *)


(** C10. The number of distinct segments of a frame is the number of
    keys of its segment aggregation, which are pairwise distinct. *)
Theorem segments_kpi_matches_chart (d : DataFrame) :
  total_customers d = length (keys (sales_by_segment d))
  ∧ NoDup (keys (sales_by_segment d)).
Proof.
  unfold sales_by_segment. rewrite keys_groupby_sum. split.
  - unfold total_customers, nunique. by rewrite isort_length.
  - rewrite isort_Permutation. apply NoDup_unique.
Qed.

(** ** Sorting by a categorical column *)

Lemma insert_by_fmap {A B} (g : A → B) (le : B → B → bool) x l :
  map g (insert_by (λ a b, le (g a) (g b)) x l) = insert_by le (g x) (map g l).
Proof.
  induction l as [|y l IH]; simpl; [done|].
  destruct (le (g x) (g y)); simpl; [done|]. by rewrite IH.
Qed.

Lemma isort_fmap {A B} (g : A → B) (le : B → B → bool) l :
  map g (isort (λ a b, le (g a) (g b)) l) = isort le (map g l).
Proof.
  induction l as [|x l IH]; simpl; [done|].
  by rewrite insert_by_fmap, IH.
Qed.

Lemma keys_sort_values_categorical order (a : Aggregation) :
  keys (sort_values_categorical order a) = isort (cat_leb order) (keys a).
Proof.
  unfold keys, sort_values_categorical.
  apply (isort_fmap fst (cat_leb order)).
Qed.

Lemma code_leb_total c1 c2 : code_leb c1 c2 = true ∨ code_leb c2 c1 = true.
Proof.
  destruct c1 as [n1|], c2 as [n2|]; simpl; auto.
  rewrite !Nat.leb_le. lia.
Qed.

Lemma code_leb_trans c1 c2 c3 :
  code_leb c1 c2 = true → code_leb c2 c3 = true → code_leb c1 c3 = true.
Proof.
  destruct c1 as [n1|], c2 as [n2|], c3 as [n3|]; simpl; try done.
  rewrite !Nat.leb_le. lia.
Qed.

Lemma cat_code_Some order s n :
  cat_code order s = Some n → order !! n = Some s.
Proof.
  revert n. induction order as [|c cs IH]; intros n; simpl; [done|].
  destruct (decide (c = s)) as [->|Hne].
  - by intros [= <-].
  - destruct (cat_code cs s) as [m|] eqn:E; simpl; [|done].
    intros [= <-]. simpl. by apply IH.
Qed.

Lemma cat_code_elem_of order s : s ∈ order → is_Some (cat_code order s).
Proof.
  induction order as [|c cs IH]; intros Hin.
  { by apply not_elem_of_nil in Hin. }
  simpl. destruct (decide (c = s)) as [->|Hne]; [by eexists|].
  apply elem_of_cons in Hin as [?|Hin]; [done|].
  destruct (IH Hin) as [m ->]. by eexists.
Qed.

Lemma cat_leb_antisym order s t :
  s ∈ order → t ∈ order →
  cat_leb order s t = true → cat_leb order t s = true → s = t.
Proof.
  intros [n Hn]%cat_code_elem_of [m Hm]%cat_code_elem_of.
  unfold cat_leb. rewrite Hn, Hm. simpl. rewrite !Nat.leb_le. intros ??.
  assert (n = m) as -> by lia.
  apply cat_code_Some in Hn, Hm. congruence.
Qed.

Lemma StronglySorted_filter {A} (R : relation A) (P : A → Prop)
    `{∀ x, Decision (P x)} (l : list A) :
  StronglySorted R l → StronglySorted R (filter P l).
Proof.
  induction 1 as [|x l Hl IH Hx]; [constructor|].
  rewrite filter_cons. destruct (decide (P x)); [|done].
  constructor; [done|].
  apply Forall_forall. intros y [_ Hy]%list_elem_of_filter.
  rewrite Forall_forall in Hx. by apply Hx.
Qed.

Section categorical.
Variable order : list string.
Hypothesis order_NoDup : NoDup order.
Hypothesis order_sorted :
  StronglySorted (λ s t, cat_leb order s t = true) order.

(** Sorting a frame with distinct keys, all of them categories, lists
    the categories that occur as keys, in the order of the categories. *)
Lemma sort_values_categorical_keys (a : Aggregation) :
  NoDup (keys a) → (∀ k, k ∈ keys a → k ∈ order) →
  keys (sort_values_categorical order a) = filter (λ c, c ∈ keys a) order.
Proof.
  intros Hnd Hsub. rewrite keys_sort_values_categorical.
  apply (StronglySorted_unique_strong (λ s t, cat_leb order s t = true)).
  - intros s t Hs Ht. apply cat_leb_antisym.
    + apply Hsub. by apply elem_of_isort in Hs.
    + by apply list_elem_of_filter in Ht as [_ ?].
  - apply isort_StronglySorted.
    + intros x y. apply code_leb_total.
    + intros x y z. apply code_leb_trans.
  - by apply StronglySorted_filter.
  - apply NoDup_Permutation.
    + by rewrite isort_Permutation.
    + by apply NoDup_filter.
    + intros k. rewrite elem_of_isort, list_elem_of_filter.
      split; [intros Hk; split; [done|by apply Hsub]|by intros [? _]].
Qed.
End categorical.

Lemma month_order_NoDup : NoDup month_order.
Proof. apply (bool_decide_unpack _). by vm_compute. Qed.

Lemma month_order_sorted :
  StronglySorted (λ s t, cat_leb month_order s t = true) month_order.
Proof. apply (bool_decide_unpack _). by vm_compute. Qed.

Lemma month_name_in_order (m : month) : month_name m ∈ month_order.
Proof. destruct m; apply (bool_decide_unpack _); by vm_compute. Qed.

Lemma query_Permutation (d1 d2 : DataFrame) Y S I :
  d1 ≡ₚ d2 → query d1 Y S I ≡ₚ query d2 Y S I.
Proof. intros E. rewrite !query_filter. by rewrite E. Qed.

Lemma Month_query_load_data (sheet : list RawRow) Y S I m :
  m ∈ map Month (query (load_data sheet) Y S I) → m ∈ month_order.
Proof.
  intros (r & -> & Hr)%list_elem_of_fmap.
  pose proof (elem_of_sublist _ _ _ Hr (query_sublist _ Y S I)) as Hr'.
  apply list_elem_of_fmap in Hr' as (x & -> & _).
  apply month_name_in_order.
Qed.

Lemma keys_groupby_sum_NoDup (key : Row → string) (d : DataFrame) :
  NoDup (keys (groupby_sum key d)).
Proof.
  rewrite keys_groupby_sum, isort_Permutation. apply NoDup_unique.
Qed.

Lemma elem_of_keys_groupby_sum (key : Row → string) (d : DataFrame) k :
  k ∈ keys (groupby_sum key d) ↔ k ∈ map key d.
Proof. by rewrite keys_groupby_sum, elem_of_isort, elem_of_unique. Qed.

Lemma keys_monthly_trend (sheet : list RawRow) Y S I :
  let d := query (load_data sheet) Y S I in
  keys (monthly_trend d) = filter (λ m, m ∈ map Month d) month_order.
Proof.
  intros d. unfold monthly_trend.
  rewrite sort_values_categorical_keys.
  - apply list_filter_iff. intros m. apply elem_of_keys_groupby_sum.
  - apply month_order_NoDup.
  - apply month_order_sorted.
  - apply keys_groupby_sum_NoDup.
  - intros k Hk%elem_of_keys_groupby_sum.
    by apply Month_query_load_data in Hk.
Qed.

Lemma filter_Forall_id {A} (P : A → Prop) `{∀ x, Decision (P x)} (l : list A) :
  Forall P l → filter P l = l.
Proof.
  induction 1 as [|x l Hx Hl IH]; [done|].
  by rewrite filter_cons_True, IH.
Qed.

(** C7. The keys of the monthly aggregation of a filtered frame are the
    months that occur in that frame, listed in calendar order: a month
    without rows is left out, not given a zero total; and when all twelve
    months occur, the keys are January to December in that order,
    whatever the order of the rows in the sheet. *)
Theorem monthly_trend_calendar_order
    (sheet : list RawRow) (Y : list Z) (S I : list string) :
  keys (monthly_trend (query (load_data sheet) Y S I)) =
    filter (λ m, m ∈ map Month (query (load_data sheet) Y S I)) month_order
  ∧ (∀ m, m ∉ map Month (query (load_data sheet) Y S I) →
          m ∉ keys (monthly_trend (query (load_data sheet) Y S I)))
  ∧ (Forall (λ m, m ∈ map Month (query (load_data sheet) Y S I)) month_order →
     ∀ sheet', sheet' ≡ₚ sheet →
       keys (monthly_trend (query (load_data sheet') Y S I)) = month_order).
Proof.
  split; [apply keys_monthly_trend|]. split.
  - intros m Hm. rewrite keys_monthly_trend, list_elem_of_filter. tauto.
  - intros Hall sheet' E. rewrite keys_monthly_trend.
    apply filter_Forall_id. eapply Forall_impl; [exact Hall|].
    intros m Hm. simpl in *.
    assert (query (load_data sheet') Y S I ≡ₚ query (load_data sheet) Y S I)
      as ->; [|done].
    apply query_Permutation. unfold load_data. by apply Permutation_map.
Qed.

Lemma monthly_trend_calendar_order_witness :
  keys (monthly_trend (query (load_data (rev sheet12)) [2023] ["SegA"] ["Tech"]))
  = month_order.
Proof.
  apply (proj2 (proj2
           (monthly_trend_calendar_order sheet12 [2023] ["SegA"] ["Tech"]))).
  - apply (bool_decide_unpack _). vm_compute. exact I.
  - symmetry. apply Permutation_rev.
Defined.

(** ** The order of rows does not matter to an aggregation *)

Lemma string_leb_trans (x y z : string) :
  String.leb x y = true → String.leb y z = true → String.leb x z = true.
Proof.
  unfold String.leb. revert y z.
  induction x as [|a x IH]; intros [|b y] [|c z]; simpl; try done.
  unfold Ascii.compare.
  destruct (N.compare_spec (N_of_ascii a) (N_of_ascii b)) as [Eab|Lab|Gab],
           (N.compare_spec (N_of_ascii b) (N_of_ascii c)) as [Ebc|Lbc|Gbc],
           (N.compare_spec (N_of_ascii a) (N_of_ascii c)) as [Eac|Lac|Gac];
    try done; try lia.
  apply IH.
Qed.


(** ** The key with the largest total *)

Lemma sort_values_amount_desc_Permutation (a : Aggregation) :
  sort_values_amount_desc a ≡ₚ a.
Proof.
  unfold sort_values_amount_desc.
  etransitivity; [symmetry; apply Permutation_rev|].
  rewrite isort_Permutation. symmetry. apply Permutation_rev.
Qed.

(** The first row after the descending sort carries a largest total. *)
Lemma sort_values_amount_desc_head (a : Aggregation) k v rest :
  sort_values_amount_desc a = (k, v) :: rest →
  (k, v) ∈ a ∧ ∀ k' v', (k', v') ∈ a → v' ≤ v.
Proof.
  intros Hs.
  assert ((k, v) ∈ a) as Hin.
  { rewrite <- (sort_values_amount_desc_Permutation a), Hs. by left. }
  split; [done|]. intros k' v' Hin'.
  unfold sort_values_amount_desc in Hs.
  pose proof (isort_StronglySorted amount_leb) as Hsorted.
  specialize (Hsorted ltac:(intros x y; unfold amount_leb; rewrite !Z.leb_le; lia)).
  specialize (Hsorted ltac:(intros x y z; unfold amount_leb; rewrite !Z.leb_le; lia)).
  specialize (Hsorted (rev a)).
  assert (isort amount_leb (rev a) = (rev rest ++ [(k, v)])%list) as Hi.
  { rewrite <- (rev_involutive (isort amount_leb (rev a))), Hs. done. }
  rewrite Hi in Hsorted.
  assert ((k', v') ∈ (rev rest ++ [(k, v)])%list) as Hin2.
  { rewrite <- Hi, isort_Permutation, <- Permutation_rev. done. }
  apply elem_of_app in Hin2 as [Hin2|Hin2].
  - pose proof (StronglySorted_app_1_elem_of _ _ _ (k', v') (k, v) Hsorted Hin2)
      as Hle.
    unfold amount_leb in Hle. simpl in Hle. apply Z.leb_le, Hle. by left.
  - apply list_elem_of_singleton in Hin2 as [= -> ->]. lia.
Qed.

Lemma top_key_nil : top_key [] = Raise IndexError.
Proof. reflexivity. Qed.




(** ** The empty filtered frame *)

Lemma page_body_nil :
  page_body [] =
  [ metric_revenue 0; metric_segments 0; metric_avg NaN; chart_segment [];
    chart_day []; chart_industry []; data_table []; chart_month [] ].
Proof. reflexivity. Qed.

Lemma insight_summary_nil (years : list Z) :
  insight_summary years [] = Raise IndexError.
Proof. reflexivity. Qed.

Lemma run_empty (g : Globals) :
  filtered_df (apply_filters g) = [] → run g = (page_body [], Raise IndexError).
Proof. intros E. unfold run. by rewrite E, insight_summary_nil. Qed.

(** C1, as stated, fails: with no year selected the filtered frame is
    empty, the average is [NaN], and [NaN] is the value of the average
    metric on the page. *)
Lemma avg_transaction_nan_counterexample :
  filtered_df (apply_filters g_no_year) = []
  ∧ avg_transaction (filtered_df (apply_filters g_no_year)) = NaN
  ∧ metric_avg NaN ∈ (run g_no_year).1.
Proof.
  split; [reflexivity|]. split; [reflexivity|].
  vm_compute. do 2 right. left.
Qed.

(** C1, amended. On an empty filtered frame the average is [NaN]: it is
    not zero and no other value stands for a missing average; the run
    puts the average metric on the page, with [NaN] as its value. *)
Theorem avg_transaction_empty (g : Globals) :
  filtered_df (apply_filters g) = [] →
  avg_transaction (filtered_df (apply_filters g)) = NaN
  ∧ avg_transaction (filtered_df (apply_filters g)) ≠ Finite (Qmake 0 1)
  ∧ metric_avg NaN ∈ (run g).1.
Proof.
  intros E. rewrite (run_empty g E), E. simpl.
  split; [done|]. split; [done|]. do 2 right. left.
Qed.

Lemma avg_transaction_empty_witness :
  avg_transaction (filtered_df (apply_filters g_no_year)) = NaN
  ∧ avg_transaction (filtered_df (apply_filters g_no_year)) ≠ Finite (Qmake 0 1)
  ∧ metric_avg NaN ∈ (run g_no_year).1.
Proof. apply avg_transaction_empty. reflexivity. Defined.

(** C2. With no year selected the segment aggregation of the sample
    frame is empty, [top_key] raises [IndexError] on it, and the run ends
    with that exception once the metrics, charts and table are on the
    page. *)
Theorem top_key_empty_raises :
  sales_by_segment (filtered_df (apply_filters g_no_year)) = []
  ∧ top_key (sales_by_segment (filtered_df (apply_filters g_no_year)))
    = Raise IndexError
  ∧ run g_no_year = (page_body [], Raise IndexError).
Proof. repeat split. Qed.

(** * Further properties of the script *)

(** ** The filter *)

Lemma filter_impl_sublist {A} (P Q : A → Prop)
    `{∀ x, Decision (P x)} `{∀ x, Decision (Q x)} (l : list A) :
  (∀ x, P x → Q x) → filter P l `sublist_of` filter Q l.
Proof.
  intros HPQ. induction l as [|x l IH]; [done|].
  rewrite !filter_cons.
  destruct (decide (P x)) as [HP|HP].
  - rewrite decide_True by auto. by apply sublist_skip.
  - destruct (decide (Q x)); [by apply sublist_cons|done].
Qed.

(** X1. Filtering twice is filtering by both conditions, in either order;
    and when the second selections are contained in the first, the first
    filter makes no difference. *)
Theorem query_compose (d : DataFrame)
    (Y1 Y2 : list Z) (S1 S2 I1 I2 : list string) :
  query (query d Y1 S1 I1) Y2 S2 I2 = query (query d Y2 S2 I2) Y1 S1 I1
  ∧ ((∀ y, y ∈ Y2 → y ∈ Y1) → (∀ s, s ∈ S2 → s ∈ S1) →
     (∀ i, i ∈ I2 → i ∈ I1) →
     query (query d Y1 S1 I1) Y2 S2 I2 = query d Y2 S2 I2).
Proof.
  rewrite !query_filter, !list_filter_filter. split.
  - apply list_filter_iff. tauto.
  - intros HY HS HI. apply list_filter_iff. intros r. unfold selected.
    split; [tauto|]. intros (Hy & Hs & Hi). auto 10.
Qed.

Lemma query_compose_witness :
  query (query df4 [2023; 2024] ["SegA"; "SegB"] ["Tech"; "Retail"])
        [2023] ["SegA"] ["Tech"]
  = query df4 [2023] ["SegA"] ["Tech"].
Proof.
  apply (proj2 (query_compose df4 [2023; 2024] [2023] ["SegA"; "SegB"]
                  ["SegA"] ["Tech"; "Retail"] ["Tech"]));
    intros x Hx; apply (bool_decide_unpack _);
    repeat (apply elem_of_cons in Hx as [->|Hx]; [by vm_compute|]);
    by apply not_elem_of_nil in Hx.
Defined.

(** X2. Enlarging the selections only adds rows: the rows shown under
    the smaller selections appear, in the same order, among the rows shown
    under the larger ones. *)
Theorem query_monotone (d : DataFrame)
    (Y Y' : list Z) (S S' I I' : list string) :
  (∀ y, y ∈ Y → y ∈ Y') → (∀ s, s ∈ S → s ∈ S') → (∀ i, i ∈ I → i ∈ I') →
  query d Y S I `sublist_of` query d Y' S' I'.
Proof.
  intros HY HS HI. rewrite !query_filter. apply filter_impl_sublist.
  unfold selected. intros r (Hy & Hs & Hi). auto.
Qed.

Lemma query_monotone_witness :
  query df4 [2023] ["SegA"] ["Tech"]
  `sublist_of` query df4 [2023; 2024] ["SegA"; "SegB"] ["Tech"; "Retail"].
Proof.
  apply query_monotone;
    intros x Hx; apply (bool_decide_unpack _);
    repeat (apply elem_of_cons in Hx as [->|Hx]; [by vm_compute|]);
    by apply not_elem_of_nil in Hx.
Defined.

(** X3. The filter returns the whole frame exactly when every row has its
    year, segment and industry among the selections. *)
Theorem query_all_iff (d : DataFrame) (Y : list Z) (S I : list string) :
  query d Y S I = d ↔ Forall (selected Y S I) d.
Proof.
  rewrite query_filter. split.
  - intros E. rewrite <- E. apply Forall_forall.
    by intros r [Hr _]%list_elem_of_filter.
  - apply filter_Forall_id.
Qed.

(** X4. Only the values in a selection matter, not their order or their
    repetitions; and the filter works row by row, so that the filter of
    two frames put end to end is the two filtered frames put end to end. *)
Theorem query_selection_sets (d d' : DataFrame)
    (Y Y' : list Z) (S S' I I' : list string) :
  ((∀ y, y ∈ Y ↔ y ∈ Y') → (∀ s, s ∈ S ↔ s ∈ S') → (∀ i, i ∈ I ↔ i ∈ I') →
   query d Y S I = query d Y' S' I')
  ∧ query (d ++ d') Y S I = (query d Y S I ++ query d' Y S I)%list.
Proof.
  split.
  - intros HY HS HI. rewrite !query_filter. apply list_filter_iff.
    intros r. unfold selected. by rewrite HY, HS, HI.
  - rewrite !query_filter. apply filter_app.
Qed.

Lemma query_selection_sets_witness :
  query df4 [2023; 2023] ["SegB"; "SegA"] ["Tech"]
  = query df4 [2023] ["SegA"; "SegB"; "SegA"] ["Tech"; "Tech"].
Proof.
  apply (proj1 (query_selection_sets df4 [] _ _ _ _ _ _));
    intros x; split; intros Hx; apply (bool_decide_unpack _);
    repeat (apply elem_of_cons in Hx as [->|Hx]; [by vm_compute|]);
    by apply not_elem_of_nil in Hx.
Defined.

Lemma elem_of_query (d : DataFrame) Y S I r :
  r ∈ query d Y S I →
  r ∈ d ∧ Year r ∈ Y ∧ customer_segment r ∈ S ∧ businessindustrytype r ∈ I.
Proof.
  rewrite query_filter, list_elem_of_filter. unfold selected. tauto.
Qed.

(** ** The aggregations *)

Lemma sort_values_categorical_Permutation order (a : Aggregation) :
  sort_values_categorical order a ≡ₚ a.
Proof. apply isort_Permutation. Qed.



(** X6. The keys of the segment and industry aggregations are pairwise
    distinct and in ascending order of their names. *)
Theorem groupby_keys_sorted (d : DataFrame) :
  NoDup (keys (sales_by_segment d))
  ∧ StronglySorted (λ s t, String.leb s t = true) (keys (sales_by_segment d))
  ∧ NoDup (keys (industry_sales d))
  ∧ StronglySorted (λ s t, String.leb s t = true) (keys (industry_sales d)).
Proof.
  unfold sales_by_segment, industry_sales.
  repeat split; try apply keys_groupby_sum_NoDup;
    rewrite keys_groupby_sum;
    apply isort_StronglySorted;
    [apply String.leb_total|apply string_leb_trans
    |apply String.leb_total|apply string_leb_trans].
Qed.


(** X8. The charts of a filtered frame show selected categories only:
    every key of the segment aggregation is a selected segment and every
    key of the industry aggregation a selected industry; and the number of
    distinct segments is at most the number of selected segments and at
    most the number of rows. *)
Theorem filtered_keys_selected (d : DataFrame) (Y : list Z) (S I : list string) :
  (∀ k, k ∈ keys (sales_by_segment (query d Y S I)) → k ∈ S)
  ∧ (∀ k, k ∈ keys (industry_sales (query d Y S I)) → k ∈ I)
  ∧ (total_customers (query d Y S I) ≤ length S)%nat
  ∧ (total_customers (query d Y S I) ≤ length (query d Y S I))%nat.
Proof.
  assert (∀ k, k ∈ map customer_segment (query d Y S I) → k ∈ S) as HS.
  { intros k (r & -> & Hr)%list_elem_of_fmap.
    apply elem_of_query in Hr. tauto. }
  assert (∀ k, k ∈ map businessindustrytype (query d Y S I) → k ∈ I) as HI.
  { intros k (r & -> & Hr)%list_elem_of_fmap.
    apply elem_of_query in Hr. tauto. }
  split; [|split; [|split]].
  - intros k Hk%elem_of_keys_groupby_sum. by apply HS.
  - intros k Hk%elem_of_keys_groupby_sum. by apply HI.
  - unfold total_customers, nunique. apply submseteq_length, NoDup_submseteq.
    + apply NoDup_unique.
    + intros k Hk. rewrite elem_of_unique in Hk. by apply HS.
  - unfold total_customers, nunique.
    rewrite <- (length_map customer_segment (query d Y S I)).
    apply submseteq_length, NoDup_submseteq.
    + apply NoDup_unique.
    + intros k Hk. by rewrite elem_of_unique in Hk.
Qed.

(** ** The loader *)

Lemma dayofweek_range (t : Timestamp) : 0 ≤ dayofweek t < 7.
Proof. unfold dayofweek. apply Z.mod_pos_bound. lia. Qed.

Lemma day_name_code (t : Timestamp) :
  cat_code day_order (day_name t) = Some (Z.to_nat (dayofweek t)).
Proof.
  unfold day_name. pose proof (dayofweek_range t) as Hr.
  assert (Z.to_nat (dayofweek t) < 7)%nat as Hn by lia.
  destruct (Z.to_nat (dayofweek t)) as [|[|[|[|[|[|[|n]]]]]]];
    [reflexivity..|lia].
Qed.

Lemma cat_code_Some_elem_of order s n : cat_code order s = Some n → s ∈ order.
Proof. intros H%cat_code_Some. by eapply list_elem_of_lookup_2. Qed.

Lemma day_name_in_order (t : Timestamp) : day_name t ∈ day_order.
Proof. eapply cat_code_Some_elem_of, day_name_code. Qed.



Lemma day_order_NoDup : NoDup day_order.
Proof. apply (bool_decide_unpack _). by vm_compute. Qed.

Lemma day_order_sorted :
  StronglySorted (λ s t, cat_leb day_order s t = true) day_order.
Proof. apply (bool_decide_unpack _). by vm_compute. Qed.

(** X10. The keys of the weekday aggregation of a filtered frame are the
    day names that occur in that frame, from Monday to Sunday; a day
    without rows is left out. *)
Theorem sales_by_day_week_order
    (sheet : list RawRow) (Y : list Z) (S I : list string) :
  keys (sales_by_day (query (load_data sheet) Y S I)) =
    filter (λ n, n ∈ map Day_Name (query (load_data sheet) Y S I)) day_order.
Proof.
  unfold sales_by_day.
  rewrite sort_values_categorical_keys.
  - apply list_filter_iff. intros n. apply elem_of_keys_groupby_sum.
  - apply day_order_NoDup.
  - apply day_order_sorted.
  - apply keys_groupby_sum_NoDup.
  - intros k Hk. rewrite elem_of_keys_groupby_sum in Hk.
    apply list_elem_of_fmap in Hk as (r & -> & Hr).
    pose proof (elem_of_sublist _ _ _ Hr (query_sublist _ Y S I)) as Hr'.
    apply list_elem_of_fmap in Hr' as (x & -> & _).
    apply day_name_in_order.
Qed.

(** ** The order of the rows *)





(** ** The insight summary and the run *)

Lemma top_key_Ok (a : Aggregation) :
  a ≠ [] →
  ∃ k v, top_key a = Ok k ∧ (k, v) ∈ a ∧ ∀ k' v', (k', v') ∈ a → v' ≤ v.
Proof.
  intros Hne. unfold top_key.
  destruct (sort_values_amount_desc a) as [|[k v] rest] eqn:Hs.
  { pose proof (sort_values_amount_desc_Permutation a) as E.
    rewrite Hs in E. by apply Permutation_nil in E. }
  exists k, v. split; [done|]. by apply sort_values_amount_desc_head in Hs.
Qed.

Lemma top_key_Ok_inv (a : Aggregation) (k : string) :
  top_key a = Ok k →
  ∃ v, (k, v) ∈ a ∧ ∀ k' v', (k', v') ∈ a → v' ≤ v.
Proof.
  intros Hk. destruct a as [|x a]; [done|].
  destruct (top_key_Ok (x :: a)) as (k0 & v & Hk0 & Hin & Hmax); [done|].
  rewrite Hk in Hk0. injection Hk0 as ->. by exists v.
Qed.

Lemma groupby_sum_nonempty (key : Row → string) (d : DataFrame) :
  d ≠ [] → groupby_sum key d ≠ [].
Proof.
  destruct d as [|r d]; [done|]. intros _ E.
  assert (key r ∈ keys (groupby_sum key (r :: d))) as Hin.
  { apply elem_of_keys_groupby_sum. simpl. by left. }
  rewrite E in Hin. by apply not_elem_of_nil in Hin.
Qed.

Lemma sort_values_categorical_nonempty order (a : Aggregation) :
  a ≠ [] → sort_values_categorical order a ≠ [].
Proof.
  intros Hne E. pose proof (sort_values_categorical_Permutation order a) as P.
  rewrite E in P. by apply Permutation_nil in P.
Qed.

Lemma insight_summary_Ok (years : list Z) (d : DataFrame) :
  d ≠ [] → ∃ i, insight_summary years d = Ok i.
Proof.
  intros Hne. unfold insight_summary.
  destruct (top_key_Ok (sales_by_segment d)) as (k1 & ? & -> & _).
  { by apply groupby_sum_nonempty. }
  destruct (top_key_Ok (sales_by_day d)) as (k2 & ? & -> & _).
  { by apply sort_values_categorical_nonempty, groupby_sum_nonempty. }
  destruct (top_key_Ok (industry_sales d)) as (k3 & ? & -> & _).
  { by apply groupby_sum_nonempty. }
  by eexists.
Qed.

(** X12. A run ends with [IndexError] exactly when the filtered frame is
    empty.  On a non-empty filtered frame it ends normally, with the
    insight text as the last element of the page; in both cases the
    metrics, charts and table are on the page. *)
Theorem run_outcome (g : Globals) :
  ((run g).2 = Raise IndexError ↔ filtered_df (apply_filters g) = [])
  ∧ ((run g).2 = Ok () ↔ filtered_df (apply_filters g) ≠ [])
  ∧ (filtered_df (apply_filters g) ≠ [] →
     ∃ i, insight_summary (selected_year g) (filtered_df (apply_filters g))
          = Ok i
          ∧ (run g).1 = (page_body (filtered_df (apply_filters g))
                         ++ [insight_text i])%list)
  ∧ (filtered_df (apply_filters g) = [] → (run g).1 = page_body []).
Proof.
  destruct (decide (filtered_df (apply_filters g) = [])) as [E|Hne].
  - rewrite (run_empty g E). simpl. split; [done|]. split; [|done].
    split; [done|]. by intros ?.
  - destruct (insight_summary_Ok (selected_year g) _ Hne) as [i Hi].
    unfold run. rewrite Hi. simpl. split; [split; [done|by intros ?]|].
    split; [done|]. split; [|done]. intros _. by exists i.
Qed.

(** X13. When the insight summary is produced, its total is the total of
    the [Amount] column, its year count is the number of selected years,
    and each of the three names it gives is a key of the aggregation it
    is taken from, with a total that no other key of that aggregation
    exceeds. *)
Theorem insight_summary_content (years : list Z) (d : DataFrame) (i : Insight) :
  insight_summary years d = Ok i →
  insight_total i = total_sales d
  ∧ insight_years i = length years
  ∧ (∃ v, (insight_segment i, v) ∈ sales_by_segment d
          ∧ ∀ k' v', (k', v') ∈ sales_by_segment d → v' ≤ v)
  ∧ (∃ v, (insight_day i, v) ∈ sales_by_day d
          ∧ ∀ k' v', (k', v') ∈ sales_by_day d → v' ≤ v)
  ∧ (∃ v, (insight_industry i, v) ∈ industry_sales d
          ∧ ∀ k' v', (k', v') ∈ industry_sales d → v' ≤ v).
Proof.
  unfold insight_summary.
  destruct (top_key (sales_by_segment d)) as [k1|] eqn:H1; [|done].
  destruct (top_key (sales_by_day d)) as [k2|] eqn:H2; [|done].
  destruct (top_key (industry_sales d)) as [k3|] eqn:H3; [|done].
  simpl. intros [= <-]. simpl.
  split; [done|]. split; [done|].
  split; [by apply top_key_Ok_inv|].
  split; by apply top_key_Ok_inv.
Qed.

Lemma insight_summary_content_witness :
  ∃ i, insight_summary [2023] (query df4 [2023] ["SegA"; "SegB"] ["Tech"; "Retail"])
       = Ok i
       ∧ insight_total i = 350 ∧ insight_segment i = "SegA"
       ∧ ∃ v, (insight_segment i, v)
                ∈ sales_by_segment
                    (query df4 [2023] ["SegA"; "SegB"] ["Tech"; "Retail"])
              ∧ ∀ k' v', (k', v')
                ∈ sales_by_segment
                    (query df4 [2023] ["SegA"; "SegB"] ["Tech"; "Retail"])
                → v' ≤ v.
Proof.
  eexists. split; [reflexivity|]. split; [reflexivity|].
  split; [reflexivity|].
  eapply (proj1 (proj2 (proj2 (insight_summary_content [2023]
            (query df4 [2023] ["SegA"; "SegB"] ["Tech"; "Retail"]) _ _)))).
  Unshelve. reflexivity.
Defined.

(** ** The average *)


(** ** The sidebar *)

Lemma elem_of_unique_values {A} `{EqDecision A} (x : A) (l : list A) :
  x ∈ unique_values l ↔ x ∈ l.
Proof.
  induction l as [|y l IH]; simpl; [done|].
  rewrite !elem_of_cons, list_elem_of_filter, IH.
  destruct (decide (x = y)); tauto.
Qed.





Lemma first_row_selected (r : Row) (d : DataFrame) :
  selected (year_options (r :: d)) (segment_default (r :: d))
           (industry_default (r :: d)) r.
Proof.
  unfold selected, year_options, segment_default, industry_default,
    segment_options, industry_options.
  split; [|split].
  - rewrite elem_of_isort, elem_of_unique_values. simpl. by left.
  - simpl. by left.
  - simpl. by left.
Qed.

(** X16. The first run of the script on a frame with at least one row.
    The default selections are options of their selectors, at most three
    segments and five industries; the first row of the frame passes the
    filter, so the filtered frame is not empty and the run ends normally,
    without [IndexError]. *)
Theorem first_run_ok (d : DataFrame) :
  d ≠ [] →
  (∀ s, s ∈ segment_default d → s ∈ segment_options d)
  ∧ (∀ i, i ∈ industry_default d → i ∈ industry_options d)
  ∧ (length (segment_default d) ≤ 3)%nat
  ∧ (length (industry_default d) ≤ 5)%nat
  ∧ head (filtered_df (apply_filters (first_run d))) = head d
  ∧ (run (first_run d)).2 = Ok ().
Proof.
  intros Hne.
  split; [intros s; apply subseteq_take|].
  split; [intros s; apply subseteq_take|].
  split; [unfold segment_default; rewrite length_take; lia|].
  split; [unfold industry_default; rewrite length_take; lia|].
  destruct d as [|r d]; [done|].
  assert (filtered_df (apply_filters (first_run (r :: d)))
          = r :: query d (year_options (r :: d)) (segment_default (r :: d))
                       (industry_default (r :: d))) as E.
  { simpl filtered_df. simpl df. rewrite !query_filter.
    rewrite filter_cons_True; [done|]. apply first_row_selected. }
  split; [by rewrite E|].
  destruct (insight_summary_Ok (selected_year (first_run (r :: d)))
              (filtered_df (apply_filters (first_run (r :: d)))))
    as [i Hi]; [by rewrite E|].
  unfold run. by rewrite Hi.
Qed.

Lemma first_run_ok_witness :
  head (filtered_df (apply_filters (first_run (load_data sheet6))))
  = head (load_data sheet6)
  ∧ (run (first_run (load_data sheet6))).2 = Ok ().
Proof.
  pose proof (first_run_ok (load_data sheet6)) as H.
  split; apply H; discriminate.
Defined.

(** X17. When the frame has at most three segments and at most five
    industries, the first run shows every row: the filtered frame is the
    whole frame. *)
Theorem first_run_shows_all (d : DataFrame) :
  (length (segment_options d) ≤ 3)%nat →
  (length (industry_options d) ≤ 5)%nat →
  filtered_df (apply_filters (first_run d)) = d.
Proof.
  intros H3 H5. simpl. rewrite query_filter. apply filter_Forall_id.
  apply Forall_forall. intros r Hr. unfold selected.
  unfold segment_default, industry_default.
  rewrite !take_ge by done.
  unfold year_options, segment_options, industry_options.
  rewrite elem_of_isort, elem_of_unique_values, !elem_of_unique.
  split; [|split]; apply list_elem_of_fmap; by exists r.
Qed.

Lemma first_run_shows_all_witness :
  filtered_df (apply_filters (first_run df4)) = df4.
Proof. apply first_run_shows_all; vm_compute; lia. Defined.

(** With more than three segments the first run hides rows: of the seven
    rows of the six-segment sheet it keeps four. *)
Example first_run_hides_rows :
  length (filtered_df (apply_filters (first_run (load_data sheet6)))) = 4%nat.
Proof. reflexivity. Qed.

(** X18. Selecting every option of the three selectors shows the whole
    frame. *)
Theorem query_all_options (d : DataFrame) :
  query d (year_options d) (segment_options d) (industry_options d) = d.
Proof.
  rewrite query_filter. apply filter_Forall_id.
  apply Forall_forall. intros r Hr.
  unfold selected, year_options, segment_options, industry_options.
  rewrite elem_of_isort, elem_of_unique_values, !elem_of_unique.
  split; [|split]; apply list_elem_of_fmap; by exists r.
Qed.

(** ** Filter and totals together *)






(** The number of distinct segments is zero exactly when the frame has
    no rows. *)
Lemma total_customers_zero_iff (d : DataFrame) :
  total_customers d = 0%nat ↔ d = [].
Proof.
  unfold total_customers, nunique. destruct d as [|r d]; simpl; split; done.
Qed.

Lemma run_outcome_witness :
  ∃ i, insight_summary (selected_year (first_run df4))
         (filtered_df (apply_filters (first_run df4))) = Ok i
       ∧ (run (first_run df4)).1
         = (page_body (filtered_df (apply_filters (first_run df4)))
            ++ [insight_text i])%list.
Proof.
  apply (proj1 (proj2 (proj2 (run_outcome (first_run df4))))).
  vm_compute. discriminate.
Defined.

